(** * CPF validation: a shallow embedding of [func_validacpf.py]

    The module defines the validator [validar_cpf] and two HTTP handlers,
    [validar_cpf_http] (POST) and [validar_cpf_get] (GET), that wrap it.

    Conventions of the embedding:
    - a Python [str] is a [string], the UTF-8 encoding of its text.  The only
      operations the program applies to an unfiltered [str] are the regular
      expression substitution that keeps the ASCII digits and the truth test;
      both agree on the text and on its encoding, since no byte of a
      multi-byte UTF-8 sequence is below 128.  Every string that is indexed
      or sliced consists of ASCII digits only;
    - a Python [int] is a [Z];
    - a call either returns or raises: the [py] monad;
    - a [dict] with string keys is a [gmap string value]: equality of
      dictionaries does not depend on insertion order, as in Python;
    - the [logging] calls of the handlers write to the host's log and have no
      influence on the response; they are left out. *)

From Stdlib Require Import ZArith String Ascii List Floats Lia.
From stdpp Require Import gmap strings list fin_maps.

Set Warnings "-register-all".
Local Open Scope Z_scope.

(** ** Exceptions and the monad of calls *)

(** The exception classes that the operations used by the program raise. *)
Inductive exn : Type :=
  | TypeError
  | ValueError
  | IndexError
  | KeyError
  | AttributeError
  | NameError.

Inductive py (A : Type) : Type :=
  | Ret (a : A)
  | Raise (e : exn).
Arguments Ret {A} a.
Arguments Raise {A} e.

#[global] Instance py_ret : MRet py := fun A a => Ret a.
#[global] Instance py_bind : MBind py := fun A B f m =>
  match m with
  | Ret a => f a
  | Raise e => Raise e
  end.

(** [try: m except e: handler e] *)
Definition try_except {A : Type} (m : py A) (handler : exn -> py A) : py A :=
  match m with
  | Ret a => Ret a
  | Raise e => handler e
  end.

(** [for i in range(n): acc = body acc i] *)
Fixpoint for_in {A : Type} (body : A -> Z -> py A) (l : list Z) (acc : A) : py A :=
  match l with
  | [] => Ret acc
  | i :: l' => acc' ← body acc i; for_in body l' acc'
  end.

Definition range (n : nat) : list Z := map Z.of_nat (seq 0 n).

(** ** Values *)

(** The values a decoded JSON document is made of; the validator's result
    holds [None], booleans and strings. *)
Inductive value : Type :=
  | VNone
  | VBool (b : bool)
  | VInt (z : Z)
  | VFloat (f : PrimFloat.float)
  | VStr (s : string)
  | VList (l : list value)
  | VDict (d : gmap string value).

(** Python's truth test, as used by [not x] and by [a if x else b]. *)
Definition truthy (v : value) : bool :=
  match v with
  | VNone => false
  | VBool b => b
  | VInt z => negb (z =? 0)
  | VFloat f => negb (PrimFloat.eqb f PrimFloat.zero)
  | VStr s => negb (String.eqb s "")
  | VList l => match l with [] => false | _ :: _ => true end
  | VDict d => negb (Nat.eqb (size d) 0)
  end.

(** A dictionary display [{k1: v1, ...}] with distinct keys. *)
Definition dict_of (l : list (string * value)) : gmap string value :=
  list_to_map l.

(** [d[k]] *)
Definition subscript (d : gmap string value) (k : string) : py value :=
  match d !! k with
  | Some v => Ret v
  | None => Raise KeyError
  end.

(** [v.get(k)]: only a dictionary has the method. *)
Definition method_get (v : value) (k : string) : py value :=
  match v with
  | VDict d => Ret (default VNone (d !! k))
  | _ => Raise AttributeError
  end.

(** ** Strings *)

(** The characters of the class [0-9]. *)
Definition is_digit (c : ascii) : bool :=
  ((48 <=? N_of_ascii c) && (N_of_ascii c <=? 57))%N.

(** What [re.sub(r'[^0-9]', '', s)] does to a string: every character outside
    [0-9] is replaced by the empty string. *)
Fixpoint strip_non_digits (s : string) : string :=
  match s with
  | EmptyString => EmptyString
  | String c s' =>
      if is_digit c then String c (strip_non_digits s') else strip_non_digits s'
  end.

(** [re.sub(r'[^0-9]', '', v)]: anything but a string is refused. *)
Definition re_sub_non_digits (v : value) : py string :=
  match v with
  | VStr s => Ret (strip_non_digits s)
  | _ => Raise TypeError
  end.

(** [s[i]]: a negative index counts from the end; the one-character result is
    represented by its character. *)
Definition getitem (s : string) (i : Z) : py ascii :=
  let n := Z.of_nat (String.length s) in
  let j := if i <? 0 then i + n else i in
  if (0 <=? j) && (j <? n) then
    match String.get (Z.to_nat j) s with
    | Some c => Ret c
    | None => Raise IndexError
    end
  else Raise IndexError.

(** [c * n] for a one-character string [c]. *)
Fixpoint str_mul (c : ascii) (n : nat) : string :=
  match n with
  | O => EmptyString
  | S n' => String c (str_mul c n')
  end.

(** [int(c)] for a one-character string [c] of ASCII: a digit is its value,
    anything else is refused. *)
Definition int_ (c : ascii) : py Z :=
  if is_digit c then Ret (Z.of_N (N_of_ascii c) - 48) else Raise ValueError.

(** [s[lo:hi]] and [s[lo:]] for non-negative bounds. *)
Definition slice (s : string) (lo hi : nat) : string :=
  substring lo (hi - lo) s.
Definition slice_from (s : string) (lo : nat) : string :=
  substring lo (String.length s - lo) s.

(** ** The validator *)

(** The loop
[[
    soma = 0
    for i in range(n):
        soma += int(cpf[i]) * (peso - i)
]]
    which the source runs with [n = 9, peso = 10] and with
    [n = 10, peso = 11]. *)
Definition soma_loop (cpf : string) (n : nat) (peso : Z) : py Z :=
  for_in (fun soma i => c ← getitem cpf i; d ← int_ c; mret (soma + d * (peso - i)))
         (range n) 0.

Definition validar_cpf (cpf : value) : py (gmap string value) :=
  cpf ← re_sub_non_digits cpf;
  if negb (Nat.eqb (String.length cpf) 11) then
    mret (dict_of [("valido", VBool false);
                   ("erro", VStr "CPF deve conter 11 dígitos");
                   ("cpf_formatado", VNone)])
  else
  c0 ← getitem cpf 0;
  if String.eqb cpf (str_mul c0 11) then
    mret (dict_of [("valido", VBool false);
                   ("erro", VStr "CPF não pode ter todos os dígitos iguais");
                   ("cpf_formatado", VNone)])
  else
  soma ← soma_loop cpf 9 10;
  let resto := soma mod 11 in
  let digito1 := if resto <? 2 then 0 else 11 - resto in
  c9 ← getitem cpf 9;
  d9 ← int_ c9;
  if negb (digito1 =? d9) then
    mret (dict_of [("valido", VBool false);
                   ("erro", VStr "Primeiro dígito verificador inválido");
                   ("cpf_formatado", VNone)])
  else
  soma ← soma_loop cpf 10 11;
  let resto := soma mod 11 in
  let digito2 := if resto <? 2 then 0 else 11 - resto in
  c10 ← getitem cpf 10;
  d10 ← int_ c10;
  if negb (digito2 =? d10) then
    mret (dict_of [("valido", VBool false);
                   ("erro", VStr "Segundo dígito verificador inválido");
                   ("cpf_formatado", VNone)])
  else
  let cpf_formatado :=
    slice cpf 0 3 +:+ "." +:+ slice cpf 3 6 +:+ "." +:+ slice cpf 6 9
      +:+ "-" +:+ slice_from cpf 9 in
  mret (dict_of [("valido", VBool true);
                 ("erro", VNone);
                 ("cpf_formatado", VStr cpf_formatado);
                 ("cpf_apenas_numeros", VStr cpf)]).


(** ** The HTTP handlers *)

(** What a handler reads of an [HttpRequest]: [get_json] is the outcome of
    [req.get_json()], the decoded body or the [ValueError] raised for a body
    that is not JSON; [params] are the query parameters. *)
Record HttpRequest : Type := {
  get_json : py value;
  params : gmap string string
}.

(** [func.HttpResponse(body, status_code=..., mimetype=...)] *)
Record HttpResponse : Type := {
  body : string;
  status_code : Z;
  mimetype : string
}.

(** The module globals a handler looks up when it runs, beside the imported
    [func] and [logging]: the validator, and the name [json], which is bound
    to the standard module (of which the handlers use [dumps]) only if the
    module imports it. *)
Record Globals : Type := {
  g_validar_cpf : value -> py (gmap string value);
  g_json : option (gmap string value -> string)
}.

(** The source imports [azure.functions], [logging] and [re]: the name [json]
    is not bound. *)
Definition module_globals : Globals :=
  {| g_validar_cpf := validar_cpf; g_json := None |}.

(** [json.dumps(d)]: the name [json] is looked up first. *)
Definition json_dumps (G : Globals) (d : gmap string value) : py string :=
  match g_json G with
  | Some dumps => Ret (dumps d)
  | None => Raise NameError
  end.

(** The quotation mark of the JSON literals. *)
Definition dq : string := String "034"%char EmptyString.

(** The literal [{"erro": "<msg>"}] *)
Definition erro_json (msg : string) : string :=
  "{" +:+ dq +:+ "erro" +:+ dq +:+ ": " +:+ dq +:+ msg +:+ dq +:+ "}".

Definition validar_cpf_http (G : Globals) (req : HttpRequest) : py HttpResponse :=
  try_except
    (req_body ← get_json req;
     cpf ← method_get req_body "cpf";
     if negb (truthy cpf) then
       mret {| body := erro_json "CPF não fornecido no corpo da requisição";
               status_code := 400;
               mimetype := "application/json" |}
     else
     resultado ← g_validar_cpf G cpf;
     dumped ← json_dumps G resultado;
     valido ← subscript resultado "valido";
     mret {| body := dumped;
             status_code := if truthy valido then 200 else 400;
             mimetype := "application/json" |})
    (fun e =>
       match e with
       | ValueError =>
           mret {| body := erro_json "Corpo da requisição inválido";
                   status_code := 400;
                   mimetype := "application/json" |}
       | _ =>
           mret {| body := erro_json "Erro interno do servidor";
                   status_code := 500;
                   mimetype := "application/json" |}
       end).

Definition validar_cpf_get (G : Globals) (req : HttpRequest) : py HttpResponse :=
  let cpf := from_option VStr VNone (params req !! "cpf") in
  if negb (truthy cpf) then
    mret {| body := erro_json "Parâmetro CPF não fornecido. Use ?cpf=12345678901";
            status_code := 400;
            mimetype := "application/json" |}
  else
  resultado ← g_validar_cpf G cpf;
  dumped ← json_dumps G resultado;
  valido ← subscript resultado "valido";
  mret {| body := dumped;
          status_code := if truthy valido then 200 else 400;
          mimetype := "application/json" |}.

(** ** The algorithm as the specification words it *)

(** The decimal digits a string of digits stands for. *)
Definition digit_value (c : ascii) : Z := Z.of_N (N_of_ascii c) - 48.
Definition digits (s : string) : list Z :=
  map digit_value (list_ascii_of_string s).

(** The weighted sum of a sequence of digits with weights [w], [w - 1], ...
    from left to right. *)
Fixpoint weighted_sum (ds : list Z) (w : Z) : Z :=
  match ds with
  | [] => 0
  | d :: ds' => d * w + weighted_sum ds' (w - 1)
  end.

(** The remainder rule: [0] if the remainder is below [2], else [11] minus
    the remainder. *)
Definition check_digit (sum : Z) : Z :=
  let remainder := sum mod 11 in
  if remainder <? 2 then 0 else 11 - remainder.

(** First check digit: digits 0..8 with weights 10 down to 2. *)
Definition check1 (ds : list Z) : Z := check_digit (weighted_sum (take 9 ds) 10).
(** Second check digit: digits 0..9 with weights 11 down to 2. *)
Definition check2 (ds : list Z) : Z := check_digit (weighted_sum (take 10 ds) 11).

(** A string all of whose characters are decimal digits. *)
Fixpoint all_digits (s : string) : bool :=
  match s with
  | EmptyString => true
  | String c s' => is_digit c && all_digits s'
  end.

(** The four failure results and the success result. *)
Definition falha (erro : string) : gmap string value :=
  dict_of [("valido", VBool false); ("erro", VStr erro); ("cpf_formatado", VNone)].
Definition erro_tamanho : string := "CPF deve conter 11 dígitos".
Definition erro_iguais : string := "CPF não pode ter todos os dígitos iguais".
Definition erro_digito1 : string := "Primeiro dígito verificador inválido".
Definition erro_digito2 : string := "Segundo dígito verificador inválido".
Definition sucesso (formatado numeros : string) : gmap string value :=
  dict_of [("valido", VBool true); ("erro", VNone);
           ("cpf_formatado", VStr formatado); ("cpf_apenas_numeros", VStr numeros)].

(** [DDD.DDD.DDD-DD] for the eleven characters of [s]. *)
Definition formatar (s : string) : string :=
  slice s 0 3 +:+ "." +:+ slice s 3 6 +:+ "." +:+ slice s 6 9 +:+ "-" +:+ slice_from s 9.

(** All the digits of a sequence are one and the same. *)
Definition all_identical (ds : list Z) : bool :=
  match ds with
  | [] => true
  | d :: ds' => forallb (Z.eqb d) ds'
  end.

(** Steps 1 to 6 of the specified algorithm. *)
Definition validate_spec (raw : string) : gmap string value :=
  let d := strip_non_digits raw in
  let ds := digits d in
  if negb (Nat.eqb (length ds) 11) then falha erro_tamanho
  else if all_identical ds then falha erro_iguais
  else if negb (check1 ds =? nth 9 ds 0) then falha erro_digito1
  else if negb (check2 ds =? nth 10 ds 0) then falha erro_digito2
  else sucesso (formatar d) d.

(** The [valido] entry of a result. *)
Definition is_valid (r : gmap string value) : bool :=
  match r !! "valido" with
  | Some (VBool true) => true
  | _ => false
  end.

(** Requests that carry one CPF value. *)
Definition post_cpf (v : value) : HttpRequest :=
  {| get_json := Ret (VDict {["cpf" := v]}); params := ∅ |}.
Definition get_cpf (s : string) : HttpRequest :=
  {| get_json := Raise ValueError; params := {["cpf" := s]} |}.

(** Proof steps for explicit strings of digits: split an [all_digits]
    hypothesis into its conjuncts, and rewrite with the digit hypotheses. *)
Ltac split_digits H :=
  cbn [all_digits] in H; repeat (apply andb_prop in H as [? H]).
Ltac rewrite_digits :=
  repeat match goal with
         | H : is_digit ?c = true |- _ => rewrite H
         end.

(** * Properties *)

(** ** Digit strings *)

Section DigitStrings.

Lemma strip_all_digits (s : string) : all_digits (strip_non_digits s) = true.
Proof.
  induction s as [|c s IH]; simpl; [reflexivity|].
  destruct (is_digit c) eqn:Hc; simpl; [rewrite Hc|]; assumption.
Qed.

Lemma strip_id (s : string) : all_digits s = true → strip_non_digits s = s.
Proof.
  induction s as [|c s IH]; simpl; [reflexivity|].
  intros [Hc Hs]%andb_prop. rewrite Hc, (IH Hs). reflexivity.
Qed.

Lemma strip_idempotent (s : string) :
  strip_non_digits (strip_non_digits s) = strip_non_digits s.
Proof. apply strip_id, strip_all_digits. Qed.

Lemma digits_length (s : string) : length (digits s) = String.length s.
Proof.
  unfold digits. rewrite length_map.
  induction s as [|c s IH]; simpl; congruence.
Qed.

Lemma get_lt (s : string) (i : nat) :
  (i < String.length s)%nat → ∃ c, String.get i s = Some c.
Proof.
  revert i. induction s as [|c s IH]; simpl; intros i Hi; [lia|].
  destruct i as [|i]; [eauto|]. apply IH. lia.
Qed.

Lemma get_Some_lt (s : string) (i : nat) (c : ascii) :
  String.get i s = Some c → (i < String.length s)%nat.
Proof.
  revert i. induction s as [|a s IH]; simpl; intros i Hi; [discriminate|].
  destruct i as [|i]; [lia|]. apply IH in Hi. lia.
Qed.

Lemma get_is_digit (s : string) (i : nat) (c : ascii) :
  all_digits s = true → String.get i s = Some c → is_digit c = true.
Proof.
  revert i. induction s as [|a s IH]; simpl; intros i Hs Hi; [discriminate|].
  apply andb_prop in Hs as [Ha Hs].
  destruct i as [|i]; [congruence|]. eauto.
Qed.

Lemma get_digits (s : string) (i : nat) (c : ascii) :
  String.get i s = Some c → digits s !! i = Some (digit_value c).
Proof.
  unfold digits. revert i.
  induction s as [|a s IH]; simpl; intros i Hi; [discriminate|].
  destruct i as [|i]; simpl; [congruence|]. auto.
Qed.

Lemma getitem_get (s : string) (i : nat) (c : ascii) :
  String.get i s = Some c → getitem s (Z.of_nat i) = Ret c.
Proof.
  intros Hi. pose proof (get_Some_lt _ _ _ Hi) as Hlt.
  unfold getitem.
  destruct (Z.ltb_spec (Z.of_nat i) 0) as [?|_]; [lia|].
  destruct (Z.leb_spec 0 (Z.of_nat i)) as [_|?]; [|lia].
  destruct (Z.ltb_spec (Z.of_nat i) (Z.of_nat (String.length s))) as [_|?]; [|lia].
  simpl. rewrite Nat2Z.id, Hi. reflexivity.
Qed.

Lemma int_digit (c : ascii) : is_digit c = true → int_ c = Ret (digit_value c).
Proof. intros Hc. unfold int_. rewrite Hc. reflexivity. Qed.

(** [int(s[i])] on a string of digits is the [i]-th digit. *)
Lemma int_getitem (s : string) (i : nat) :
  all_digits s = true → (i < String.length s)%nat →
  ∃ c, String.get i s = Some c ∧ getitem s (Z.of_nat i) = Ret c
       ∧ int_ c = Ret (nth i (digits s) 0).
Proof.
  intros Hs Hi. destruct (get_lt s i Hi) as [c Hc]. exists c.
  split; [assumption|]. split; [apply getitem_get, Hc|].
  rewrite (int_digit c (get_is_digit _ _ _ Hs Hc)).
  erewrite nth_lookup_Some; [reflexivity|]. apply get_digits, Hc.
Qed.

Lemma digit_value_eqb (a c : ascii) :
  (digit_value c =? digit_value a) = Ascii.eqb a c.
Proof.
  unfold digit_value. destruct (Ascii.eqb_spec a c) as [->|Hne].
  - apply Z.eqb_refl.
  - apply Z.eqb_neq. intros Heq. apply Hne.
    rewrite <- (ascii_N_embedding a), <- (ascii_N_embedding c).
    f_equal. lia.
Qed.

(** Comparing with a repeated character is comparing every digit. *)
Lemma eqb_str_mul (s : string) (c : ascii) :
  String.eqb s (str_mul c (String.length s))
  = forallb (Z.eqb (digit_value c)) (digits s).
Proof.
  unfold digits. induction s as [|a s IH]; simpl; [reflexivity|].
  rewrite IH, digit_value_eqb. reflexivity.
Qed.

End DigitStrings.

(** ** The loops compute the weighted sums *)

Section Loops.

Variable cpf : string.
Variable peso : Z.
Hypothesis cpf_digits : all_digits cpf = true.

Lemma for_in_from (n k : nat) (acc : Z) :
  (k + n ≤ String.length cpf)%nat →
  for_in (fun soma i => c ← getitem cpf i; d ← int_ c; mret (soma + d * (peso - i)))
         (map Z.of_nat (seq k n)) acc
  = Ret (acc + weighted_sum (take n (drop k (digits cpf))) (peso - Z.of_nat k)).
Proof.
  revert k acc. induction n as [|n IH]; intros k acc Hk; simpl.
  - f_equal. lia.
  - assert (Hlt : (k < String.length cpf)%nat) by lia.
    destruct (get_lt cpf k Hlt) as [c Hc].
    rewrite (getitem_get _ _ _ Hc). simpl.
    rewrite (int_digit c (get_is_digit _ _ _ cpf_digits Hc)). simpl.
    rewrite IH by lia.
    rewrite (drop_S _ _ _ (get_digits _ _ _ Hc)). simpl.
    replace (peso - Z.of_nat (S k)) with (peso - Z.of_nat k - 1) by lia.
    f_equal. lia.
Qed.

Lemma soma_loop_weighted_sum (n : nat) :
  (n ≤ String.length cpf)%nat →
  soma_loop cpf n peso = Ret (weighted_sum (take n (digits cpf)) peso).
Proof.
  intros Hn. unfold soma_loop, range. rewrite for_in_from by lia.
  simpl. rewrite Z.sub_0_r. reflexivity.
Qed.

End Loops.

(** ** The validator follows the specified algorithm *)

Lemma validar_cpf_strip (s : string) :
  validar_cpf (VStr s) = validar_cpf (VStr (strip_non_digits s)).
Proof.
  unfold validar_cpf. simpl re_sub_non_digits.
  rewrite strip_idempotent. reflexivity.
Qed.

Lemma all_identical_str_mul (d : string) (c0 : ascii) :
  String.get 0 d = Some c0 →
  String.eqb d (str_mul c0 (String.length d)) = all_identical (digits d).
Proof.
  intros Hc0. rewrite eqb_str_mul.
  destruct d as [|a d]; [discriminate|].
  simpl in Hc0. injection Hc0 as ->.
  unfold digits. simpl. rewrite Z.eqb_refl. reflexivity.
Qed.

Lemma validar_cpf_refines (s : string) :
  validar_cpf (VStr s) = Ret (validate_spec s).
Proof.
  unfold validar_cpf, validate_spec. simpl re_sub_non_digits.
  pose proof (strip_all_digits s) as Hd.
  set (d := strip_non_digits s) in *.
  cbn [mbind py_bind]. rewrite digits_length.
  destruct (Nat.eqb_spec (String.length d) 11) as [Hlen|Hlen]; simpl negb; cbv iota;
    [|reflexivity].
  destruct (int_getitem d 0 Hd) as (c0 & Hc0 & G0 & _); [lia|].
  destruct (int_getitem d 9 Hd) as (c9 & _ & G9 & I9); [lia|].
  destruct (int_getitem d 10 Hd) as (c10 & _ & G10 & I10); [lia|].
  change (Z.of_nat 0) with 0 in G0. change (Z.of_nat 9) with 9 in G9.
  change (Z.of_nat 10) with 10 in G10.
  rewrite G0. cbn [mbind py_bind].
  rewrite <- (all_identical_str_mul d c0 Hc0), Hlen.
  destruct (String.eqb d (str_mul c0 11)); [reflexivity|].
  rewrite (soma_loop_weighted_sum d 10 Hd 9) by lia.
  rewrite (soma_loop_weighted_sum d 11 Hd 10) by lia.
  rewrite G9, G10. cbn [mbind py_bind]. rewrite I9, I10. cbn [mbind py_bind].
  fold (check_digit (weighted_sum (take 9 (digits d)) 10)).
  fold (check_digit (weighted_sum (take 10 (digits d)) 11)).
  fold (check1 (digits d)). fold (check2 (digits d)).
  destruct (check1 (digits d) =? nth 9 (digits d) 0); simpl negb; cbv iota;
    [|reflexivity].
  destruct (check2 (digits d) =? nth 10 (digits d) 0); reflexivity.
Qed.

(** ** Results as dictionaries *)

Section Results.

Lemma falha_valido (e : string) : falha e !! "valido" = Some (VBool false).
Proof. reflexivity. Qed.

Lemma falha_erro (e : string) : falha e !! "erro" = Some (VStr e).
Proof. reflexivity. Qed.

Lemma falha_formatado (e : string) : falha e !! "cpf_formatado" = Some VNone.
Proof. reflexivity. Qed.

Lemma falha_numeros (e : string) : falha e !! "cpf_apenas_numeros" = None.
Proof. reflexivity. Qed.

Lemma falha_dom (e : string) :
  dom (falha e) = ({["valido"; "erro"; "cpf_formatado"]} : gset string).
Proof.
  unfold falha, dict_of. simpl list_to_map.
  rewrite !dom_insert_L, dom_empty_L. set_solver.
Qed.

Lemma sucesso_valido (f n : string) : sucesso f n !! "valido" = Some (VBool true).
Proof. reflexivity. Qed.

Lemma sucesso_erro (f n : string) : sucesso f n !! "erro" = Some VNone.
Proof. reflexivity. Qed.

Lemma sucesso_formatado (f n : string) :
  sucesso f n !! "cpf_formatado" = Some (VStr f).
Proof. reflexivity. Qed.

Lemma sucesso_numeros (f n : string) :
  sucesso f n !! "cpf_apenas_numeros" = Some (VStr n).
Proof. reflexivity. Qed.

Lemma sucesso_dom (f n : string) :
  dom (sucesso f n)
  = ({["valido"; "erro"; "cpf_formatado"; "cpf_apenas_numeros"]} : gset string).
Proof.
  unfold sucesso, dict_of. simpl list_to_map.
  rewrite !dom_insert_L, dom_empty_L. set_solver.
Qed.

End Results.

(** ** Decisions of the validator *)

Section Decisions.

Lemma str_mul_length (c : ascii) (n : nat) : String.length (str_mul c n) = n.
Proof. induction n as [|n IH]; simpl; congruence. Qed.

(** A string of eleven characters that equals no repeated character has
    digits that are not all identical. *)
Lemma not_repeated_digits (d : string) :
  String.length d = 11%nat → (∀ c, d ≠ str_mul c 11) →
  all_identical (digits d) = false.
Proof.
  intros Hlen Hne. destruct (get_lt d 0) as [c0 Hc0]; [lia|].
  rewrite <- (all_identical_str_mul d c0 Hc0), Hlen.
  apply String.eqb_neq, Hne.
Qed.

Lemma repeated_digits (c : ascii) :
  all_identical (digits (str_mul c 11)) = true.
Proof.
  rewrite <- (all_identical_str_mul (str_mul c 11) c) by reflexivity.
  rewrite str_mul_length. apply String.eqb_refl.
Qed.

(** The digits of an eleven-digit string, with the two check digits spelled
    out as sums. *)
Lemma eleven_digits (d : string) :
  String.length d = 11%nat →
  ∃ z0 z1 z2 z3 z4 z5 z6 z7 z8 z9 z10 : Z,
    digits d = [z0; z1; z2; z3; z4; z5; z6; z7; z8; z9; z10]
    ∧ check1 (digits d)
      = check_digit (z0 * 10 + z1 * 9 + z2 * 8 + z3 * 7 + z4 * 6 + z5 * 5
                     + z6 * 4 + z7 * 3 + z8 * 2)
    ∧ check2 (digits d)
      = check_digit (z0 * 11 + z1 * 10 + z2 * 9 + z3 * 8 + z4 * 7 + z5 * 6
                     + z6 * 5 + z7 * 4 + z8 * 3 + z9 * 2).
Proof.
  intros Hlen. rewrite <- digits_length in Hlen.
  destruct (digits d) as [|z0 [|z1 [|z2 [|z3 [|z4 [|z5 [|z6 [|z7 [|z8 [|z9
    [|z10 [|? ?]]]]]]]]]]]]; try discriminate.
  exists z0, z1, z2, z3, z4, z5, z6, z7, z8, z9, z10.
  split; [reflexivity|].
  unfold check1, check2. simpl. split; f_equal; lia.
Qed.

End Decisions.

(** * The claims *)

(** C1: when the stripped input has eleven digits that are not all identical,
    the first loop computes the sum of the digits 0..8 with weights 10 down to
    2 and the second the sum of the digits 0..9 with weights 11 down to 2; the
    check digits are [0] for a remainder modulo 11 below 2 and 11 minus the
    remainder otherwise; a first check digit other than digit 9 gives the
    first-check-digit failure, and otherwise a second check digit other than
    digit 10 gives the second-check-digit failure. *)
Theorem check_digit_mismatch (s : string) :
  let d := strip_non_digits s in
  let ds := digits d in
  String.length d = 11%nat →
  (∀ c, d ≠ str_mul c 11) →
  ∃ z0 z1 z2 z3 z4 z5 z6 z7 z8 z9 z10 : Z,
    ds = [z0; z1; z2; z3; z4; z5; z6; z7; z8; z9; z10]
    ∧ soma_loop d 9 10
      = Ret (z0 * 10 + z1 * 9 + z2 * 8 + z3 * 7 + z4 * 6 + z5 * 5
             + z6 * 4 + z7 * 3 + z8 * 2)
    ∧ soma_loop d 10 11
      = Ret (z0 * 11 + z1 * 10 + z2 * 9 + z3 * 8 + z4 * 7 + z5 * 6
             + z6 * 5 + z7 * 4 + z8 * 3 + z9 * 2)
    ∧ check1 ds
      = check_digit (z0 * 10 + z1 * 9 + z2 * 8 + z3 * 7 + z4 * 6 + z5 * 5
                     + z6 * 4 + z7 * 3 + z8 * 2)
    ∧ check2 ds
      = check_digit (z0 * 11 + z1 * 10 + z2 * 9 + z3 * 8 + z4 * 7 + z5 * 6
                     + z6 * 5 + z7 * 4 + z8 * 3 + z9 * 2)
    ∧ (check1 ds ≠ z9 → validar_cpf (VStr s) = Ret (falha erro_digito1))
    ∧ (check1 ds = z9 → check2 ds ≠ z10 →
       validar_cpf (VStr s) = Ret (falha erro_digito2)).
Proof.
  intros d ds Hlen Hne.
  pose proof (strip_all_digits s) as Hd. fold d in Hd.
  pose proof (not_repeated_digits d Hlen Hne) as Hid.
  pose proof (soma_loop_weighted_sum d 10 Hd 9) as L1.
  pose proof (soma_loop_weighted_sum d 11 Hd 10) as L2.
  pose proof (validar_cpf_refines s) as R. unfold validate_spec in R.
  fold d in R. fold ds in R, L1, L2, Hid.
  rewrite Hid in R.
  destruct (eleven_digits d Hlen) as
    (z0 & z1 & z2 & z3 & z4 & z5 & z6 & z7 & z8 & z9 & z10 & E & C1 & C2).
  fold ds in E, C1, C2.
  exists z0, z1, z2, z3, z4, z5, z6, z7, z8, z9, z10.
  assert (Hlen' : length ds = 11%nat) by (rewrite E; reflexivity).
  rewrite Hlen' in R. simpl in R.
  split; [exact E|].
  split; [rewrite L1 by lia; rewrite E; simpl; f_equal; lia|].
  split; [rewrite L2 by lia; rewrite E; simpl; f_equal; lia|].
  split; [exact C1|]. split; [exact C2|].
  replace (nth 9 ds 0) with z9 in R by (rewrite E; reflexivity).
  replace (nth 10 ds 0) with z10 in R by (rewrite E; reflexivity).
  split.
  - intros H1. apply Z.eqb_neq in H1. rewrite H1 in R. exact R.
  - intros H1 H2. apply Z.eqb_eq in H1. apply Z.eqb_neq in H2.
    rewrite H1, H2 in R. exact R.
Qed.

Lemma check_digit_mismatch_witness :
  validar_cpf (VStr "111.444.777-45") = Ret (falha erro_digito1)
  ∧ validar_cpf (VStr "111.444.777-36") = Ret (falha erro_digito2).
Proof.
  split.
  - destruct (check_digit_mismatch "111.444.777-45") as
      (z0 & z1 & z2 & z3 & z4 & z5 & z6 & z7 & z8 & z9 & z10 & E & _ & _ & _ & _ & H & _).
    + reflexivity.
    + intros c Hc. simpl in Hc. injection Hc as <- ?. discriminate.
    + apply H. simpl in E. injection E as <- <- <- <- <- <- <- <- <- <- <-.
      vm_compute. discriminate.
  - destruct (check_digit_mismatch "111.444.777-36") as
      (z0 & z1 & z2 & z3 & z4 & z5 & z6 & z7 & z8 & z9 & z10 & E & _ & _ & _ & _ & _ & H).
    + reflexivity.
    + intros c Hc. simpl in Hc. injection Hc as <- ?. discriminate.
    + simpl in E. injection E as <- <- <- <- <- <- <- <- <- <- <-.
      apply H; vm_compute; [reflexivity|discriminate].
Defined.

(** C2: an input whose stripped form does not have exactly eleven digits is
    refused with the wrong-length reason. *)
Theorem wrong_length (s : string) :
  String.length (strip_non_digits s) ≠ 11%nat →
  validar_cpf (VStr s) = Ret (falha erro_tamanho).
Proof.
  intros Hlen. rewrite validar_cpf_refines. unfold validate_spec.
  rewrite digits_length.
  destruct (Nat.eqb_spec (String.length (strip_non_digits s)) 11); [contradiction|].
  reflexivity.
Qed.

Lemma wrong_length_witness :
  validar_cpf (VStr "123.456.789-0") = Ret (falha erro_tamanho).
Proof. apply wrong_length. vm_compute. discriminate. Defined.

(** C3: an input whose stripped form is eleven copies of one digit is refused
    with the repeated-digit reason. *)
Theorem repeated_digit (s : string) (c : ascii) :
  strip_non_digits s = str_mul c 11 →
  validar_cpf (VStr s) = Ret (falha erro_iguais).
Proof.
  intros Hs. rewrite validar_cpf_refines. unfold validate_spec.
  rewrite Hs, repeated_digits, digits_length, str_mul_length. reflexivity.
Qed.

Lemma repeated_digit_witness :
  validar_cpf (VStr "00000000000") = Ret (falha erro_iguais)
  ∧ validar_cpf (VStr "111.111.111-11") = Ret (falha erro_iguais).
Proof.
  split.
  - apply (repeated_digit "00000000000" "0"). reflexivity.
  - apply (repeated_digit "111.111.111-11" "1"). reflexivity.
Defined.

(** C4: when every check passes the result is valid and carries the eleven
    digits formatted as DDD.DDD.DDD-DD together with the digits alone;
    ["11144477735"] is valid with ["111.444.777-35"], and ["11144477736"]
    fails on the second check digit. *)
Theorem valid_result :
  (∀ s : string,
     let d := strip_non_digits s in
     let ds := digits d in
     String.length d = 11%nat →
     (∀ c, d ≠ str_mul c 11) →
     check1 ds = nth 9 ds 0 →
     check2 ds = nth 10 ds 0 →
     ∃ c0 c1 c2 c3 c4 c5 c6 c7 c8 c9 c10 : ascii,
       d = string_of_list_ascii [c0; c1; c2; c3; c4; c5; c6; c7; c8; c9; c10]
       ∧ forallb is_digit [c0; c1; c2; c3; c4; c5; c6; c7; c8; c9; c10] = true
       ∧ validar_cpf (VStr s)
         = Ret (sucesso
                  (string_of_list_ascii
                     [c0; c1; c2; "."%char; c3; c4; c5; "."%char; c6; c7; c8;
                      "-"%char; c9; c10])
                  d))
  ∧ validar_cpf (VStr "11144477735")
    = Ret (sucesso "111.444.777-35" "11144477735")
  ∧ validar_cpf (VStr "11144477736") = Ret (falha erro_digito2).
Proof.
  split; [|split; reflexivity].
  intros s d ds Hlen Hne H1 H2. subst ds.
  pose proof (strip_all_digits s) as Hd. fold d in Hd.
  pose proof (validar_cpf_refines s) as R. unfold validate_spec in R.
  fold d in R.
  rewrite (not_repeated_digits d Hlen Hne), digits_length, Hlen, H1, H2,
    !Z.eqb_refl in R.
  simpl in R.
  destruct d as [|c0 [|c1 [|c2 [|c3 [|c4 [|c5 [|c6 [|c7 [|c8 [|c9 [|c10 [|? ?]]]]]]]]]]]];
    try discriminate.
  exists c0, c1, c2, c3, c4, c5, c6, c7, c8, c9, c10.
  split; [reflexivity|]. split; [exact Hd|exact R].
Qed.

Lemma valid_result_witness :
  ∃ f, validar_cpf (VStr "111.444.777-35") = Ret (sucesso f "11144477735").
Proof.
  destruct valid_result as [H _].
  destruct (H "111.444.777-35") as
    (c0 & c1 & c2 & c3 & c4 & c5 & c6 & c7 & c8 & c9 & c10 & _ & _ & R).
  - reflexivity.
  - intros c Hc. simpl in Hc. injection Hc as <- ?. discriminate.
  - reflexivity.
  - reflexivity.
  - eexists. exact R.
Defined.

(** C5: validating an input and validating its digits give the same outcome;
    in particular ["111.444.777-35"] and ["11144477735"] do. *)
Theorem strip_invariant :
  (∀ s : string, validar_cpf (VStr s) = validar_cpf (VStr (strip_non_digits s)))
  ∧ validar_cpf (VStr "111.444.777-35") = validar_cpf (VStr "11144477735").
Proof. split; [apply validar_cpf_strip|reflexivity]. Qed.

(** C6: if an input is valid, validating the digits-only string of its result
    returns that same result. *)
Theorem revalidate_digits (s d : string) (r : gmap string value) :
  validar_cpf (VStr s) = Ret r →
  r !! "valido" = Some (VBool true) →
  r !! "cpf_apenas_numeros" = Some (VStr d) →
  validar_cpf (VStr d) = Ret r.
Proof.
  intros Hr Hv Hd. rewrite <- Hr.
  rewrite validar_cpf_refines in Hr. injection Hr as <-.
  unfold validate_spec in Hv, Hd.
  repeat match type of Hv with
         | context [if ?b then _ else _] => destruct b
         end;
    try (rewrite falha_valido in Hv; discriminate).
  rewrite sucesso_numeros in Hd. injection Hd as <-.
  symmetry. apply validar_cpf_strip.
Qed.

Lemma revalidate_digits_witness :
  validar_cpf (VStr "11144477735")
  = Ret (sucesso "111.444.777-35" "11144477735").
Proof.
  apply (revalidate_digits "111.444.777-35" "11144477735"); reflexivity.
Defined.

(** C7, as the claim states it, fails: an input that is not a string makes the
    call raise [TypeError]; no result is returned. *)
Lemma non_string_input_raises :
  validar_cpf (VInt 11144477735) = Raise TypeError
  ∧ ¬ (∃ r, validar_cpf (VInt 11144477735) = Ret r).
Proof. split; [reflexivity|]. intros [r Hr]. discriminate Hr. Qed.

(** C7, amended: on every string the validator returns its result, failures
    included, and raises nothing; on anything that is not a string the
    substitution raises [TypeError] before any check is made. *)
Theorem returns_on_strings :
  (∀ s : string, ∃ r, validar_cpf (VStr s) = Ret r)
  ∧ (∀ v : value, (∀ s, v ≠ VStr s) → validar_cpf v = Raise TypeError).
Proof.
  split.
  - intros s. exists (validate_spec s). apply validar_cpf_refines.
  - intros v Hv. destruct v; try reflexivity. exfalso. eapply Hv. reflexivity.
Qed.

Lemma returns_on_strings_witness :
  validar_cpf VNone = Raise TypeError.
Proof.
  destruct returns_on_strings as [_ H]. apply H. intros s Hs. discriminate Hs.
Defined.

(** ** The handlers *)

Section Handlers.

Lemma truthy_str (s : string) : s ≠ "" → truthy (VStr s) = true.
Proof. intros Hs. simpl. apply String.eqb_neq in Hs. rewrite Hs. reflexivity. Qed.

Lemma validate_spec_valido (s : string) :
  validate_spec s !! "valido" = Some (VBool (is_valid (validate_spec s))).
Proof.
  unfold is_valid, validate_spec.
  repeat match goal with
         | |- context [if ?b then _ else _] => destruct b
         end; reflexivity.
Qed.

(** X17: the status logic of the handlers.  Had the module bound [json], both
    handlers would answer a non-empty CPF string with the serialized result
    of the validator, with status 200 when it is valid and 400 when not. *)
Lemma handlers_with_json (dumps : gmap string value → string) (s : string) :
  s ≠ "" →
  let G := {| g_validar_cpf := validar_cpf; g_json := Some dumps |} in
  let resp := {| body := dumps (validate_spec s);
                 status_code := if is_valid (validate_spec s) then 200 else 400;
                 mimetype := "application/json" |} in
  validar_cpf_http G (post_cpf (VStr s)) = Ret resp
  ∧ validar_cpf_get G (get_cpf s) = Ret resp.
Proof.
  intros Hs G resp. unfold validar_cpf_http, validar_cpf_get, post_cpf, get_cpf.
  cbn [get_json params method_get mbind py_bind].
  rewrite !lookup_singleton_eq. unfold default. cbn [from_option id].
  rewrite (truthy_str s Hs). subst G. cbn [negb g_validar_cpf].
  rewrite validar_cpf_refines. unfold json_dumps. cbn [mbind py_bind g_json].
  unfold subscript. rewrite validate_spec_valido. split; reflexivity.
Qed.

(** X13: a decoded body that is not an object (a list, a string, a number,
    [null]) has no [get] method: the POST handler answers 500, whatever the
    validator and the binding of [json] are. *)
Lemma post_non_object_500 (G : Globals) (req : HttpRequest) (v : value) :
  get_json req = Ret v → (∀ d, v ≠ VDict d) →
  validar_cpf_http G req
  = Ret {| body := erro_json "Erro interno do servidor";
           status_code := 500;
           mimetype := "application/json" |}.
Proof.
  intros Hreq Hv. unfold validar_cpf_http. rewrite Hreq.
  destruct v; try reflexivity. exfalso. eapply Hv. reflexivity.
Qed.

(** X12: a body that is not JSON, for which [get_json] raises [ValueError],
    is answered with status 400 and the invalid-body message. *)
Lemma post_not_json_400 (G : Globals) (req : HttpRequest) :
  get_json req = Raise ValueError →
  validar_cpf_http G req
  = Ret {| body := erro_json "Corpo da requisição inválido";
           status_code := 400;
           mimetype := "application/json" |}.
Proof. intros Hreq. unfold validar_cpf_http. rewrite Hreq. reflexivity. Qed.

End Handlers.

(** C8: the handlers do not answer a present CPF string with the result and
    the status 200 or 400.  The module never binds [json], so serializing the
    result raises [NameError]: the POST handler catches it and answers 500
    with the internal-error body, and the GET handler lets it escape. *)
Theorem handlers_json_unbound (req : HttpRequest) (s : string) :
  s ≠ "" →
  (∀ d : gmap string value,
     get_json req = Ret (VDict d) → d !! "cpf" = Some (VStr s) →
     validar_cpf_http module_globals req
     = Ret {| body := erro_json "Erro interno do servidor";
              status_code := 500;
              mimetype := "application/json" |})
  ∧ (params req !! "cpf" = Some s →
     validar_cpf_get module_globals req = Raise NameError).
Proof.
  intros Hs. split.
  - intros d Hreq Hd. unfold validar_cpf_http. rewrite Hreq.
    cbn [mbind py_bind method_get]. rewrite Hd. unfold default.
    cbn [from_option id]. rewrite (truthy_str s Hs).
    cbn [negb module_globals g_validar_cpf]. rewrite validar_cpf_refines.
    reflexivity.
  - intros Hp. unfold validar_cpf_get. rewrite Hp. cbn [from_option].
    rewrite (truthy_str s Hs).
    cbn [negb module_globals g_validar_cpf]. rewrite validar_cpf_refines.
    reflexivity.
Qed.

Lemma handlers_json_unbound_witness :
  validar_cpf_http module_globals (post_cpf (VStr "11144477735"))
  = Ret {| body := erro_json "Erro interno do servidor";
           status_code := 500;
           mimetype := "application/json" |}
  ∧ validar_cpf_get module_globals (get_cpf "11144477735") = Raise NameError.
Proof.
  split.
  - destruct (handlers_json_unbound (post_cpf (VStr "11144477735")) "11144477735")
      as [H _]; [discriminate|].
    eapply H; reflexivity.
  - destruct (handlers_json_unbound (get_cpf "11144477735") "11144477735")
      as [_ H]; [discriminate|].
    apply H. reflexivity.
Defined.

(** C9: a POST whose JSON object has no [cpf] entry and a GET without the
    [cpf] query parameter are answered with status 400 and a missing-input
    body.  The answer is the same whatever the global [validar_cpf] is bound
    to, a validator that raises included: the validator is not run. *)
Theorem missing_cpf_400 (G : Globals) (req : HttpRequest) :
  (∀ d : gmap string value,
     get_json req = Ret (VDict d) → d !! "cpf" = None →
     validar_cpf_http G req
     = Ret {| body := erro_json "CPF não fornecido no corpo da requisição";
              status_code := 400;
              mimetype := "application/json" |})
  ∧ (params req !! "cpf" = None →
     validar_cpf_get G req
     = Ret {| body := erro_json "Parâmetro CPF não fornecido. Use ?cpf=12345678901";
              status_code := 400;
              mimetype := "application/json" |}).
Proof.
  split.
  - intros d Hreq Hd. unfold validar_cpf_http. rewrite Hreq.
    cbn [mbind py_bind method_get]. rewrite Hd. reflexivity.
  - intros Hp. unfold validar_cpf_get. rewrite Hp. reflexivity.
Qed.

Lemma missing_cpf_400_witness :
  validar_cpf_http module_globals
      {| get_json := Ret (VDict {["nome" := VStr "Ana"]}); params := ∅ |}
    = Ret {| body := erro_json "CPF não fornecido no corpo da requisição";
             status_code := 400;
             mimetype := "application/json" |}
  ∧ validar_cpf_get {| g_validar_cpf := λ _, Raise KeyError; g_json := None |}
      {| get_json := Raise ValueError; params := {["nome" := "Ana"]} |}
    = Ret {| body := erro_json "Parâmetro CPF não fornecido. Use ?cpf=12345678901";
             status_code := 400;
             mimetype := "application/json" |}.
Proof.
  split.
  - eapply (proj1 (missing_cpf_400 _ _)); reflexivity.
  - apply (proj2 (missing_cpf_400 _ _)). reflexivity.
Defined.

(** C10: a result of the validator is either a failure, with exactly the keys
    [valido] (false), [erro] (one of the four messages) and [cpf_formatado]
    ([None]), or a success, with exactly the four keys, [valido] true and
    [erro] [None]; the key [cpf_apenas_numeros] is present exactly in the
    valid results. *)
Theorem result_shape (v : value) (r : gmap string value) :
  validar_cpf v = Ret r →
  ((r !! "valido" = Some (VBool false)
    ∧ (∃ m, r !! "erro" = Some (VStr m)
            ∧ m ∈ [erro_tamanho; erro_iguais; erro_digito1; erro_digito2])
    ∧ r !! "cpf_formatado" = Some VNone
    ∧ r !! "cpf_apenas_numeros" = None
    ∧ dom r = ({["valido"; "erro"; "cpf_formatado"]} : gset string))
   ∨ (r !! "valido" = Some (VBool true)
      ∧ r !! "erro" = Some VNone
      ∧ (∃ f, r !! "cpf_formatado" = Some (VStr f))
      ∧ (∃ n, r !! "cpf_apenas_numeros" = Some (VStr n))
      ∧ dom r = ({["valido"; "erro"; "cpf_formatado"; "cpf_apenas_numeros"]}
                 : gset string)))
  ∧ (is_Some (r !! "cpf_apenas_numeros") ↔ r !! "valido" = Some (VBool true)).
Proof.
  intros Hr. destruct v; try discriminate Hr.
  rewrite validar_cpf_refines in Hr. injection Hr as <-.
  unfold validate_spec.
  repeat match goal with
         | |- context [if ?b then _ else _] => destruct b
         end.
  all: split;
    [ first
        [ left; rewrite falha_valido, falha_erro, falha_formatado, falha_numeros,
            falha_dom;
          split; [reflexivity|];
          split; [eexists; split; [reflexivity|set_solver]|];
          repeat split
        | right; rewrite sucesso_valido, sucesso_erro, sucesso_formatado,
            sucesso_numeros, sucesso_dom;
          repeat split; eexists; reflexivity ]
    | first
        [ rewrite falha_valido, falha_numeros; split;
            [intros [x Hx]; discriminate Hx | intros Hx; discriminate Hx]
        | rewrite sucesso_valido, sucesso_numeros; split; [reflexivity | eauto] ] ].
Qed.

Lemma result_shape_witness :
  is_Some (sucesso "111.444.777-35" "11144477735" !! "cpf_apenas_numeros")
  ↔ sucesso "111.444.777-35" "11144477735" !! "valido" = Some (VBool true).
Proof.
  apply (proj2 (result_shape (VStr "111.444.777-35") _ eq_refl)).
Defined.

(** * Further properties of the validator *)

Section MoreDigitStrings.


Lemma strip_app (a b : string) :
  strip_non_digits (a +:+ b) = strip_non_digits a +:+ strip_non_digits b.
Proof.
  induction a as [|c a IH]; simpl; [reflexivity|].
  destruct (is_digit c); simpl; rewrite IH; reflexivity.
Qed.

Lemma digit_value_range (c : ascii) : is_digit c = true → 0 ≤ digit_value c ≤ 9.
Proof.
  unfold is_digit, digit_value. intros [H1 H2]%andb_prop.
  apply N.leb_le in H1, H2. lia.
Qed.

Lemma digit_value_inj (a c : ascii) : digit_value a = digit_value c → a = c.
Proof.
  intros H. apply Ascii.eqb_eq. rewrite <- digit_value_eqb.
  apply Z.eqb_eq. symmetry. exact H.
Qed.

Lemma digit_char_exists (z : Z) :
  0 ≤ z ≤ 9 → ∃ c, is_digit c = true ∧ digit_value c = z.
Proof.
  intros Hz. exists (ascii_of_N (Z.to_N (z + 48))).
  unfold is_digit, digit_value.
  rewrite N_ascii_embedding by lia. split; [|lia].
  apply andb_true_intro. split; apply N.leb_le; lia.
Qed.

Lemma check_digit_range (sum : Z) : 0 ≤ check_digit sum ≤ 9.
Proof.
  unfold check_digit.
  pose proof (Z.mod_pos_bound sum 11 ltac:(lia)) as Hm.
  destruct (Z.ltb_spec (sum mod 11) 2); lia.
Qed.

(** What a valid outcome of the specified algorithm tells about the input. *)
Lemma validate_spec_valid_inv (s : string) :
  validate_spec s !! "valido" = Some (VBool true) →
  String.length (strip_non_digits s) = 11%nat
  ∧ all_identical (digits (strip_non_digits s)) = false
  ∧ check1 (digits (strip_non_digits s)) = nth 9 (digits (strip_non_digits s)) 0
  ∧ check2 (digits (strip_non_digits s)) = nth 10 (digits (strip_non_digits s)) 0
  ∧ validate_spec s
    = sucesso (formatar (strip_non_digits s)) (strip_non_digits s).
Proof.
  unfold validate_spec. rewrite digits_length.
  destruct (Nat.eqb_spec (String.length (strip_non_digits s)) 11) as [Hlen|];
    simpl negb; cbv iota; [|rewrite falha_valido; discriminate].
  destruct (all_identical _) eqn:Hid; [rewrite falha_valido; discriminate|].
  destruct (Z.eqb_spec (check1 (digits (strip_non_digits s)))
              (nth 9 (digits (strip_non_digits s)) 0)) as [H1|];
    simpl negb; cbv iota; [|rewrite falha_valido; discriminate].
  destruct (Z.eqb_spec (check2 (digits (strip_non_digits s)))
              (nth 10 (digits (strip_non_digits s)) 0)) as [H2|];
    simpl negb; cbv iota; [|rewrite falha_valido; discriminate].
  intros _. repeat split; assumption.
Qed.

(** On a string of eleven digits, formatting inserts three separators that
    the substitution removes again. *)
Lemma strip_formatar (d : string) :
  all_digits d = true → String.length d = 11%nat →
  strip_non_digits (formatar d) = d ∧ String.length (formatar d) = 14%nat.
Proof.
  intros Hd Hlen.
  destruct d as [|c0 [|c1 [|c2 [|c3 [|c4 [|c5 [|c6 [|c7 [|c8 [|c9 [|c10 [|? ?]]]]]]]]]]]];
    try discriminate.
  cbn [all_digits] in Hd.
  repeat (apply andb_prop in Hd as [? Hd]).
  split; [|reflexivity].
  unfold formatar, slice, slice_from. cbv -[is_digit].
  repeat match goal with
         | H : is_digit ?c = true |- _ => rewrite H; clear H
         end.
  reflexivity.
Qed.

End MoreDigitStrings.



(** X2: the validator accepts nothing else: a valid result means that the
    stripped input has exactly eleven digits, not all identical, whose tenth
    and eleventh digits are the two check digits, and the result is the
    success dictionary built from that stripped input. *)
Theorem valid_only_if_checks_pass (s : string) (r : gmap string value) :
  validar_cpf (VStr s) = Ret r →
  r !! "valido" = Some (VBool true) →
  let d := strip_non_digits s in
  let ds := digits d in
  String.length d = 11%nat
  ∧ (∀ c, d ≠ str_mul c 11)
  ∧ check1 ds = nth 9 ds 0
  ∧ check2 ds = nth 10 ds 0
  ∧ r = sucesso (formatar d) d.
Proof.
  intros Hr Hv d ds. rewrite validar_cpf_refines in Hr. injection Hr as <-.
  destruct (validate_spec_valid_inv s Hv) as (Hlen & Hid & H1 & H2 & Hs).
  fold d in Hlen, Hid, H1, H2, Hs. fold ds in Hid, H1, H2.
  repeat split; try assumption.
  intros c Hc. unfold ds in Hid. rewrite Hc, repeated_digits in Hid. discriminate.
Qed.

Lemma valid_only_if_checks_pass_witness :
  String.length (strip_non_digits "111.444.777-35") = 11%nat
  ∧ check1 (digits "11144477735") = 3
  ∧ check2 (digits "11144477735") = 5.
Proof.
  destruct (valid_only_if_checks_pass "111.444.777-35"
              (sucesso "111.444.777-35" "11144477735") eq_refl eq_refl)
    as (Hlen & _ & H1 & H2 & _).
  split; [exact Hlen|]. split; [exact H1|exact H2].
Defined.

(** X3: formatting and stripping are inverse on a valid CPF: the formatted
    field of a valid result has fourteen characters, its digits are the
    digits-only field, and validating it returns the same result. *)
Theorem revalidate_formatted (s f n : string) (r : gmap string value) :
  validar_cpf (VStr s) = Ret r →
  r !! "valido" = Some (VBool true) →
  r !! "cpf_formatado" = Some (VStr f) →
  r !! "cpf_apenas_numeros" = Some (VStr n) →
  String.length f = 14%nat
  ∧ strip_non_digits f = n
  ∧ validar_cpf (VStr f) = Ret r.
Proof.
  intros Hr Hv Hf Hn. pose proof Hr as Hr'.
  rewrite validar_cpf_refines in Hr'. injection Hr' as <-.
  destruct (validate_spec_valid_inv s Hv) as (Hlen & _ & _ & _ & Hs).
  rewrite Hs, sucesso_formatado in Hf. rewrite Hs, sucesso_numeros in Hn.
  injection Hf as <-. injection Hn as <-.
  destruct (strip_formatar (strip_non_digits s) (strip_all_digits s) Hlen)
    as [Hstrip Hlen14].
  split; [exact Hlen14|]. split; [exact Hstrip|].
  rewrite <- Hr, (validar_cpf_strip (formatar _)), Hstrip.
  symmetry. apply validar_cpf_strip.
Qed.

Lemma revalidate_formatted_witness :
  String.length "111.444.777-35" = 14%nat
  ∧ strip_non_digits "111.444.777-35" = "11144477735"
  ∧ validar_cpf (VStr "111.444.777-35")
    = Ret (sucesso "111.444.777-35" "11144477735").
Proof.
  apply (revalidate_formatted "11144477735" "111.444.777-35" "11144477735");
    reflexivity.
Defined.

(** X4: a character outside [0-9] changes nothing wherever it stands: the
    outcome for [a ++ c ++ b] is the outcome for [a ++ b]. *)
Theorem non_digit_ignored (a b : string) (c : ascii) :
  is_digit c = false →
  validar_cpf (VStr (a +:+ String c b)) = validar_cpf (VStr (a +:+ b)).
Proof.
  intros Hc.
  rewrite (validar_cpf_strip (a +:+ String c b)), (validar_cpf_strip (a +:+ b)).
  rewrite !strip_app. simpl. rewrite Hc. reflexivity.
Qed.

Lemma non_digit_ignored_witness :
  validar_cpf (VStr "111 44477735") = validar_cpf (VStr "11144477735").
Proof. apply (non_digit_ignored "111" "44477735" " "). reflexivity. Defined.

(** ** Check digits *)

Section CheckDigits.

(** The specified algorithm on a string of eleven digits. *)
Lemma validate_spec_digit_string (d : string) :
  all_digits d = true → String.length d = 11%nat →
  validate_spec d
  = if all_identical (digits d) then falha erro_iguais
    else if negb (check1 (digits d) =? nth 9 (digits d) 0) then falha erro_digito1
    else if negb (check2 (digits d) =? nth 10 (digits d) 0) then falha erro_digito2
    else sucesso (formatar d) d.
Proof.
  intros Hd Hlen. unfold validate_spec.
  rewrite (strip_id d Hd), digits_length, Hlen. reflexivity.
Qed.

(** With one digit repeated, the weighted sums are 54 and 65 times the digit,
    and the remainder rule gives the digit back. *)
Lemma repeated_checks (z : Z) :
  0 ≤ z ≤ 9 →
  check_digit (weighted_sum [z; z; z; z; z; z; z; z; z] 10) = z
  ∧ check_digit (weighted_sum [z; z; z; z; z; z; z; z; z; z] 11) = z.
Proof.
  intros Hz.
  assert (z = 0 ∨ z = 1 ∨ z = 2 ∨ z = 3 ∨ z = 4 ∨ z = 5 ∨ z = 6 ∨ z = 7
          ∨ z = 8 ∨ z = 9) as Hcases by lia.
  repeat destruct Hcases as [->|Hcases]; try subst z; split; reflexivity.
Qed.

(** Eleven digits whose first nine agree and whose last two are their check
    digits are the same eleven digits. *)
Lemma check_digits_determined (d e : string) :
  String.length d = 11%nat → String.length e = 11%nat →
  slice d 0 9 = slice e 0 9 →
  check1 (digits d) = nth 9 (digits d) 0 →
  check2 (digits d) = nth 10 (digits d) 0 →
  check1 (digits e) = nth 9 (digits e) 0 →
  check2 (digits e) = nth 10 (digits e) 0 →
  d = e.
Proof.
  intros Hd He Hs D1 D2 E1 E2.
  destruct d as [|c0 [|c1 [|c2 [|c3 [|c4 [|c5 [|c6 [|c7 [|c8 [|c9 [|c10 [|? ?]]]]]]]]]]]];
    try discriminate.
  destruct e as [|e0 [|e1 [|e2 [|e3 [|e4 [|e5 [|e6 [|e7 [|e8 [|e9 [|e10 [|? ?]]]]]]]]]]]];
    try discriminate.
  unfold slice in Hs. cbn [Nat.sub substring] in Hs.
  injection Hs as <- <- <- <- <- <- <- <- <-.
  unfold check1, check2, digits in *.
  cbn [list_ascii_of_string map take nth] in *.
  rewrite D1 in E1. apply digit_value_inj in E1 as <-.
  rewrite D2 in E2. apply digit_value_inj in E2 as <-.
  reflexivity.
Qed.

End CheckDigits.

(** X5: the first nine digits determine a valid CPF: two inputs that are both
    valid and whose stripped forms agree on the first nine digits have the
    same result, check digits included. *)
Theorem check_digits_unique (s t : string) (r r' : gmap string value) :
  validar_cpf (VStr s) = Ret r →
  validar_cpf (VStr t) = Ret r' →
  r !! "valido" = Some (VBool true) →
  r' !! "valido" = Some (VBool true) →
  slice (strip_non_digits s) 0 9 = slice (strip_non_digits t) 0 9 →
  strip_non_digits s = strip_non_digits t ∧ r = r'.
Proof.
  intros Hr Hr' Hv Hv' Hs.
  rewrite validar_cpf_refines in Hr, Hr'. injection Hr as <-. injection Hr' as <-.
  destruct (validate_spec_valid_inv s Hv) as (Ls & _ & S1 & S2 & Es).
  destruct (validate_spec_valid_inv t Hv') as (Lt & _ & T1 & T2 & Et).
  pose proof (check_digits_determined _ _ Ls Lt Hs S1 S2 T1 T2) as Heq.
  split; [exact Heq|]. rewrite Es, Et, Heq. reflexivity.
Qed.

Lemma check_digits_unique_witness :
  strip_non_digits "111.444.777-35" = strip_non_digits "11144477735".
Proof.
  apply (check_digits_unique "111.444.777-35" "11144477735"
           (sucesso "111.444.777-35" "11144477735")
           (sucesso "111.444.777-35" "11144477735")); reflexivity.
Defined.

(** X6: every nine digits that are not all identical can be completed to a
    valid CPF: there are two digits that, appended, make the validator
    accept. *)
Theorem check_digits_exist (b : string) :
  String.length b = 9%nat →
  all_digits b = true →
  (∀ c, b ≠ str_mul c 9) →
  ∃ c9 c10 : ascii,
    is_digit c9 = true ∧ is_digit c10 = true
    ∧ validar_cpf (VStr (b +:+ String c9 (String c10 "")))
      = Ret (sucesso (formatar (b +:+ String c9 (String c10 "")))
               (b +:+ String c9 (String c10 ""))).
Proof.
  intros Hlen Hb Hne.
  destruct b as [|c0 [|c1 [|c2 [|c3 [|c4 [|c5 [|c6 [|c7 [|c8 [|? ?]]]]]]]]]];
    try discriminate.
  destruct (digit_char_exists
              (check_digit (weighted_sum (digits
                 (String c0 (String c1 (String c2 (String c3 (String c4
                 (String c5 (String c6 (String c7 (String c8 "")))))))))) 10)))
    as (c9 & Hc9 & V9); [apply check_digit_range|].
  destruct (digit_char_exists
              (check_digit (weighted_sum (digits
                 (String c0 (String c1 (String c2 (String c3 (String c4
                 (String c5 (String c6 (String c7 (String c8
                 (String c9 ""))))))))))) 11)))
    as (c10 & Hc10 & V10); [apply check_digit_range|].
  exists c9, c10. split; [exact Hc9|]. split; [exact Hc10|].
  rewrite validar_cpf_refines.
  change (String c0 (String c1 (String c2 (String c3 (String c4 (String c5
            (String c6 (String c7 (String c8 "")))))))) +:+ String c9 (String c10 ""))
    with (String c0 (String c1 (String c2 (String c3 (String c4 (String c5
            (String c6 (String c7 (String c8 (String c9 (String c10 ""))))))))))).
  rewrite validate_spec_digit_string; [| |reflexivity].
  2:{ cbn [all_digits] in Hb |- *.
      repeat (apply andb_prop in Hb as [? Hb]).
      repeat match goal with
             | H : is_digit ?c = true |- _ => rewrite H; clear H
             end.
      reflexivity. }
  unfold check1, check2, digits in *.
  cbn [list_ascii_of_string map take nth] in *.
  rewrite <- V9, <- V10, !Z.eqb_refl. simpl negb. cbv iota.
  destruct (all_identical _) eqn:Hid; [|reflexivity].
  exfalso. apply (Hne c0).
  cbn [all_identical forallb] in Hid.
  repeat (apply andb_prop in Hid as [?%Z.eqb_eq%digit_value_inj Hid]).
  subst. reflexivity.
Qed.

Lemma check_digits_exist_witness :
  ∃ c9 c10 : ascii,
    is_digit c9 = true ∧ is_digit c10 = true
    ∧ validar_cpf (VStr ("111444777" +:+ String c9 (String c10 "")))
      = Ret (sucesso (formatar ("111444777" +:+ String c9 (String c10 "")))
               ("111444777" +:+ String c9 (String c10 ""))).
Proof.
  apply (check_digits_exist "111444777"); [reflexivity|reflexivity|].
  intros c Hc. simpl in Hc. injection Hc as <- ?. discriminate.
Defined.

(** X7: eleven copies of one digit satisfy both check-digit equations: the
    loops return 54 and 65 times the digit and both check digits are the
    digit itself, so only the comparison with [cpf[0] * 11] refuses such an
    input. *)
Theorem repeated_digits_pass_checks (c : ascii) :
  is_digit c = true →
  soma_loop (str_mul c 11) 9 10 = Ret (54 * digit_value c)
  ∧ soma_loop (str_mul c 11) 10 11 = Ret (65 * digit_value c)
  ∧ check1 (digits (str_mul c 11)) = nth 9 (digits (str_mul c 11)) 0
  ∧ check2 (digits (str_mul c 11)) = nth 10 (digits (str_mul c 11)) 0
  ∧ validar_cpf (VStr (str_mul c 11)) = Ret (falha erro_iguais).
Proof.
  intros Hc.
  assert (Hd : all_digits (str_mul c 11) = true)
    by (cbn [str_mul all_digits]; rewrite Hc; reflexivity).
  destruct (repeated_checks (digit_value c) (digit_value_range c Hc)) as [R1 R2].
  split; [rewrite (soma_loop_weighted_sum _ 10 Hd 9) by (simpl; lia);
          cbn [str_mul digits list_ascii_of_string map take weighted_sum];
          f_equal; lia|].
  split; [rewrite (soma_loop_weighted_sum _ 11 Hd 10) by (simpl; lia);
          cbn [str_mul digits list_ascii_of_string map take weighted_sum];
          f_equal; lia|].
  split; [exact R1|]. split; [exact R2|].
  rewrite validar_cpf_refines, validate_spec_digit_string by (exact Hd || reflexivity).
  rewrite repeated_digits. reflexivity.
Qed.

Lemma repeated_digits_pass_checks_witness :
  soma_loop "77777777777" 9 10 = Ret 378
  ∧ check1 (digits "77777777777") = 7
  ∧ check2 (digits "77777777777") = 7.
Proof.
  destruct (repeated_digits_pass_checks "7" eq_refl) as (S1 & _ & H1 & H2 & _).
  split; [exact S1|]. split; [exact H1|exact H2].
Defined.

Lemma append_String (c : ascii) (s t : string) :
  String c s +:+ t = String c (s +:+ t).
Proof. reflexivity. Qed.

Lemma append_Empty (t : string) : "" +:+ t = t.
Proof. reflexivity. Qed.

(** X8: changing only the last digit of a valid CPF to another digit gives
    an input that is refused on the second check digit. *)
Theorem altered_last_digit_rejected
    (p : string) (a b : ascii) (r : gmap string value) :
  String.length p = 10%nat →
  all_digits p = true →
  validar_cpf (VStr (p +:+ String a "")) = Ret r →
  r !! "valido" = Some (VBool true) →
  is_digit b = true →
  b ≠ a →
  validar_cpf (VStr (p +:+ String b "")) = Ret (falha erro_digito2).
Proof.
  intros Hlen Hp Hr Hv Hb Hne.
  destruct p as [|c0 [|c1 [|c2 [|c3 [|c4 [|c5 [|c6 [|c7 [|c8 [|c9 [|? ?]]]]]]]]]]];
    try discriminate.
  split_digits Hp.
  rewrite !append_String, append_Empty in Hr |- *.
  rewrite validar_cpf_refines in Hr. injection Hr as <-.
  destruct (validate_spec_valid_inv _ Hv) as (KL & _ & K1 & K2 & _).
  assert (Ha : is_digit a = true).
  { destruct (is_digit a) eqn:Ha; [reflexivity|].
    cbn [String.append strip_non_digits] in KL. revert KL.
    rewrite_digits. rewrite Ha. discriminate. }
  cbn [String.append strip_non_digits] in K1, K2. revert K1 K2.
  rewrite_digits. intros K1 K2.
  rewrite validar_cpf_refines.
  rewrite validate_spec_digit_string;
    [|cbn [String.append all_digits]; rewrite_digits; reflexivity|reflexivity].
  unfold check1, check2, digits in *.
  cbn [String.append list_ascii_of_string map take nth] in *.
  rewrite K1, K2, Z.eqb_refl.
  assert (Hab : (digit_value a =? digit_value b) = false).
  { apply Z.eqb_neq. intros E. apply Hne. symmetry. apply digit_value_inj, E. }
  rewrite Hab. simpl negb. cbv iota.
  destruct (all_identical _) eqn:Hid; [|reflexivity].
  exfalso. cbn [all_identical forallb] in Hid.
  repeat (apply andb_prop in Hid as [?%Z.eqb_eq%digit_value_inj Hid]).
  subst.
  destruct (repeated_checks (digit_value b) (digit_value_range b Hb)) as [_ R2].
  rewrite R2 in K2. apply digit_value_inj in K2. contradiction.
Qed.

Lemma altered_last_digit_rejected_witness :
  validar_cpf (VStr "11144477730") = Ret (falha erro_digito2).
Proof.
  apply (altered_last_digit_rejected "1114447773" "5" "0"
           (sucesso "111.444.777-35" "11144477735"));
    try reflexivity.
  discriminate.
Defined.

(** X9: changing only the tenth digit (the first check digit) of a valid CPF
    to another digit gives an input that is refused on the first check
    digit. *)
Theorem altered_tenth_digit_rejected
    (p : string) (a b c10 : ascii) (r : gmap string value) :
  String.length p = 9%nat →
  all_digits p = true →
  validar_cpf (VStr (p +:+ String a (String c10 ""))) = Ret r →
  r !! "valido" = Some (VBool true) →
  is_digit b = true →
  b ≠ a →
  validar_cpf (VStr (p +:+ String b (String c10 ""))) = Ret (falha erro_digito1).
Proof.
  intros Hlen Hp Hr Hv Hb Hne.
  destruct p as [|c0 [|c1 [|c2 [|c3 [|c4 [|c5 [|c6 [|c7 [|c8 [|? ?]]]]]]]]]];
    try discriminate.
  split_digits Hp.
  rewrite !append_String, append_Empty in Hr |- *.
  rewrite validar_cpf_refines in Hr. injection Hr as <-.
  destruct (validate_spec_valid_inv _ Hv) as (KL & _ & K1 & _ & _).
  assert (Ha : is_digit a = true ∧ is_digit c10 = true).
  { cbn [String.append strip_non_digits] in KL. revert KL. rewrite_digits.
    destruct (is_digit a), (is_digit c10); try discriminate. auto. }
  destruct Ha as [Ha Hc10].
  cbn [String.append strip_non_digits] in K1. revert K1.
  rewrite_digits. intros K1.
  rewrite validar_cpf_refines.
  rewrite validate_spec_digit_string;
    [|cbn [String.append all_digits]; rewrite_digits; reflexivity|reflexivity].
  unfold check1, digits in *.
  cbn [String.append list_ascii_of_string map take nth] in *.
  rewrite K1.
  assert (Hab : (digit_value a =? digit_value b) = false).
  { apply Z.eqb_neq. intros E. apply Hne. symmetry. apply digit_value_inj, E. }
  rewrite Hab. simpl negb. cbv iota.
  destruct (all_identical _) eqn:Hid; [|reflexivity].
  exfalso. cbn [all_identical forallb] in Hid.
  repeat (apply andb_prop in Hid as [?%Z.eqb_eq%digit_value_inj Hid]).
  subst.
  destruct (repeated_checks (digit_value c10) (digit_value_range c10 Hc10)) as [R1 _].
  rewrite R1 in K1. apply digit_value_inj in K1. contradiction.
Qed.

Lemma altered_tenth_digit_rejected_witness :
  validar_cpf (VStr "11144477745") = Ret (falha erro_digito1).
Proof.
  apply (altered_tenth_digit_rejected "111444777" "3" "4" "5"
           (sucesso "111.444.777-35" "11144477735"));
    try reflexivity.
  discriminate.
Defined.

(** * Further properties of the handlers *)

(** X10: a [cpf] that is present but falsy (an empty string, [null], [0],
    [false], an empty list or object) is answered like an absent one: status
    400 with the missing-input body, and the validator is not run.  The same
    holds for an empty [cpf] query parameter. *)
Theorem falsy_cpf_400 (G : Globals) (req : HttpRequest) :
  (∀ (d : gmap string value) (v : value),
     get_json req = Ret (VDict d) → d !! "cpf" = Some v → truthy v = false →
     validar_cpf_http G req
     = Ret {| body := erro_json "CPF não fornecido no corpo da requisição";
              status_code := 400;
              mimetype := "application/json" |})
  ∧ (params req !! "cpf" = Some "" →
     validar_cpf_get G req
     = Ret {| body := erro_json "Parâmetro CPF não fornecido. Use ?cpf=12345678901";
              status_code := 400;
              mimetype := "application/json" |}).
Proof.
  split.
  - intros d v Hreq Hd Hv. unfold validar_cpf_http. rewrite Hreq.
    cbn [mbind py_bind method_get]. rewrite Hd. unfold default.
    cbn [from_option id]. rewrite Hv. reflexivity.
  - intros Hp. unfold validar_cpf_get. rewrite Hp. reflexivity.
Qed.

Lemma falsy_cpf_400_witness :
  (validar_cpf_http module_globals (post_cpf (VStr ""))
   ≫= λ resp, Ret (status_code resp)) = Ret 400
  ∧ (validar_cpf_http module_globals (post_cpf (VInt 0))
     ≫= λ resp, Ret (status_code resp)) = Ret 400
  ∧ (validar_cpf_get module_globals (get_cpf "")
     ≫= λ resp, Ret (status_code resp)) = Ret 400.
Proof.
  split; [|split].
  - erewrite (proj1 (falsy_cpf_400 _ (post_cpf (VStr "")))); reflexivity.
  - erewrite (proj1 (falsy_cpf_400 _ (post_cpf (VInt 0)))); reflexivity.
  - erewrite (proj2 (falsy_cpf_400 _ (get_cpf ""))); reflexivity.
Defined.

(** X11: the POST handler lets no exception escape: whatever the request,
    the validator and the binding of [json] are, it returns a response, with
    the JSON media type and the status 200, 400 or 500. *)
Theorem post_always_responds (G : Globals) (req : HttpRequest) :
  ∃ resp : HttpResponse,
    validar_cpf_http G req = Ret resp
    ∧ mimetype resp = "application/json"
    ∧ (status_code resp = 200 ∨ status_code resp = 400 ∨ status_code resp = 500).
Proof.
  unfold validar_cpf_http, try_except, json_dumps, subscript, method_get.
  destruct (get_json req) as [v|e]; cbn [mbind py_bind].
  - destruct v; cbn [mbind py_bind]; try (eexists; split; [reflexivity|]; auto).
    destruct (truthy _); cbn [negb mbind py_bind mret py_ret];
      [|eexists; split; [reflexivity|]; auto].
    destruct (g_validar_cpf G _) as [r|e]; cbn [mbind py_bind].
    + destruct (g_json G); cbn [mbind py_bind];
        [|eexists; split; [reflexivity|]; auto].
      destruct (r !! "valido") as [valido|]; cbn [mbind py_bind mret py_ret];
        [|eexists; split; [reflexivity|]; auto].
      eexists; split; [reflexivity|]. cbn [mimetype status_code].
      destruct (truthy valido); auto.
    + destruct e; eexists; (split; [reflexivity|]); auto.
  - destruct e; eexists; (split; [reflexivity|]); auto.
Qed.

Lemma post_not_json_400_witness :
  validar_cpf_http module_globals {| get_json := Raise ValueError; params := ∅ |}
  = Ret {| body := erro_json "Corpo da requisição inválido";
           status_code := 400;
           mimetype := "application/json" |}.
Proof. apply post_not_json_400. reflexivity. Defined.

Lemma post_non_object_500_witness :
  validar_cpf_http module_globals
    {| get_json := Ret (VList [VStr "11144477735"]); params := ∅ |}
  = Ret {| body := erro_json "Erro interno do servidor";
           status_code := 500;
           mimetype := "application/json" |}.
Proof.
  apply (post_non_object_500 _ _ (VList [VStr "11144477735"])); [reflexivity|].
  intros d Hd. discriminate Hd.
Defined.

(** X14: a [cpf] entry that is truthy but not a string (a number, [true], a
    non-empty list or object) makes the validator raise [TypeError], which
    the POST handler turns into status 500; this does not depend on the
    binding of [json]. *)
Theorem post_non_string_cpf_500
    (G : Globals) (req : HttpRequest) (d : gmap string value) (v : value) :
  g_validar_cpf G = validar_cpf →
  get_json req = Ret (VDict d) →
  d !! "cpf" = Some v →
  truthy v = true →
  (∀ s, v ≠ VStr s) →
  validar_cpf_http G req
  = Ret {| body := erro_json "Erro interno do servidor";
           status_code := 500;
           mimetype := "application/json" |}.
Proof.
  intros HG Hreq Hd Hv Hns. unfold validar_cpf_http. rewrite Hreq.
  cbn [mbind py_bind method_get]. rewrite Hd. unfold default.
  cbn [from_option id]. rewrite Hv, HG. cbn [negb].
  destruct v; try reflexivity. exfalso. eapply Hns. reflexivity.
Qed.

Lemma post_non_string_cpf_500_witness :
  validar_cpf_http
    {| g_validar_cpf := validar_cpf; g_json := Some (λ _, "{}") |}
    (post_cpf (VInt 11144477735))
  = Ret {| body := erro_json "Erro interno do servidor";
           status_code := 500;
           mimetype := "application/json" |}.
Proof.
  eapply post_non_string_cpf_500; try reflexivity.
  intros s Hs. discriminate Hs.
Defined.

(** X15: as the module stands, no response carries a validation result: the
    POST handler returns one of its three fixed error bodies, the GET handler
    returns its missing-parameter body or raises, and neither ever answers
    200. *)
Theorem no_result_served (req : HttpRequest) :
  (validar_cpf_http module_globals req
   = Ret {| body := erro_json "CPF não fornecido no corpo da requisição";
            status_code := 400; mimetype := "application/json" |}
   ∨ validar_cpf_http module_globals req
     = Ret {| body := erro_json "Corpo da requisição inválido";
              status_code := 400; mimetype := "application/json" |}
   ∨ validar_cpf_http module_globals req
     = Ret {| body := erro_json "Erro interno do servidor";
              status_code := 500; mimetype := "application/json" |})
  ∧ (validar_cpf_get module_globals req
     = Ret {| body := erro_json "Parâmetro CPF não fornecido. Use ?cpf=12345678901";
              status_code := 400; mimetype := "application/json" |}
     ∨ validar_cpf_get module_globals req = Raise NameError).
Proof.
  split.
  - unfold validar_cpf_http, try_except, method_get.
    destruct (get_json req) as [v|e]; cbn [mbind py_bind].
    + destruct v; cbn [mbind py_bind]; auto.
      destruct (truthy _); cbn [negb mbind py_bind mret py_ret]; auto.
      cbn [module_globals g_validar_cpf].
      destruct (default VNone (d !! "cpf")); cbn [validar_cpf re_sub_non_digits];
        auto.
      rewrite validar_cpf_refines. auto.
    + destruct e; auto.
  - unfold validar_cpf_get.
    destruct (params req !! "cpf") as [s|]; cbn [from_option]; auto.
    destruct (truthy _); cbn [negb]; auto.
    cbn [module_globals g_validar_cpf]. rewrite validar_cpf_refines. auto.
Qed.

(** X16: the GET handler has no handler of its own for exceptions, yet with
    the module's validator the only exception it can raise is the
    [NameError] for the unbound [json]; when it returns, the status is 200
    or 400, never 500. *)
Theorem get_fails_only_on_json (G : Globals) (req : HttpRequest) :
  g_validar_cpf G = validar_cpf →
  (∀ e, validar_cpf_get G req = Raise e → e = NameError ∧ g_json G = None)
  ∧ (∀ resp, validar_cpf_get G req = Ret resp →
       mimetype resp = "application/json"
       ∧ (status_code resp = 200 ∨ status_code resp = 400)).
Proof.
  intros HG. unfold validar_cpf_get, json_dumps, subscript.
  destruct (params req !! "cpf") as [s|]; cbn [from_option].
  - destruct (truthy (VStr s)); cbn [negb].
    + rewrite HG, validar_cpf_refines. cbn [mbind py_bind].
      destruct (g_json G) as [dumps|]; cbn [mbind py_bind].
      * rewrite validate_spec_valido. cbn [mbind py_bind mret py_ret truthy].
        split; [intros e He; discriminate He|].
        intros resp Hresp. injection Hresp as <-. cbn [mimetype status_code].
        split; [reflexivity|]. destruct (is_valid _); auto.
      * split; [intros e He; injection He as <-; auto|].
        intros resp Hresp. discriminate Hresp.
    + split; [intros e He; discriminate He|].
      intros resp Hresp. injection Hresp as <-. auto.
  - split; [intros e He; discriminate He|].
    intros resp Hresp. injection Hresp as <-. auto.
Qed.

Lemma get_fails_only_on_json_witness :
  validar_cpf_get module_globals (get_cpf "11144477735") = Raise NameError
  ∧ g_json module_globals = None.
Proof.
  destruct (get_fails_only_on_json module_globals (get_cpf "11144477735") eq_refl)
    as [H _].
  destruct (H NameError eq_refl) as [_ Hj].
  split; [reflexivity|exact Hj].
Defined.

Lemma handlers_with_json_witness :
  (validar_cpf_http {| g_validar_cpf := validar_cpf; g_json := Some (λ _, "{}") |}
     (post_cpf (VStr "111.444.777-35"))
   ≫= λ resp, Ret (status_code resp)) = Ret 200
  ∧ (validar_cpf_get {| g_validar_cpf := validar_cpf; g_json := Some (λ _, "{}") |}
       (get_cpf "11144477736")
     ≫= λ resp, Ret (status_code resp)) = Ret 400.
Proof.
  split.
  - rewrite (proj1 (handlers_with_json (λ _, "{}") "111.444.777-35"
                      ltac:(discriminate))).
    reflexivity.
  - rewrite (proj2 (handlers_with_json (λ _, "{}") "11144477736"
                      ltac:(discriminate))).
    reflexivity.
Defined.
